(** * A shallow embedding of [s3_minio.py] (class [S3Minio] and
    [generate_image_filename]).

    The module drives boto3, the local file system, PIL and Django.  The
    object store, the file system and the SDK calls are modelled as explicit
    state threaded through a small state-and-exception monad, mirroring
    Python's [raise] / [try ... except]: an exception keeps the effects done
    before it was raised. *)

From Stdlib Require Import Ascii.
From stdpp Require Import base gmap strings list fin_maps.

Local Open Scope Z_scope.
Local Set Warnings "-register-all".

(* ------------------------------------------------------------------ *)
(** ** Python string helpers (on 8-bit strings) *)

Module Py.

Definition chr (n : nat) : ascii := ascii_of_nat n.

(** [str.isspace] on the code points 0..255. *)
Definition isspace (c : ascii) : bool :=
  let n := nat_of_ascii c in
  ((9 <=? n) && (n <=? 13))%nat || ((28 <=? n) && (n <=? 32))%nat
  || (n =? 133)%nat || (n =? 160)%nat.

(** [str.lstrip()] and [str.rstrip()] with no argument. *)
Fixpoint lstrip (s : string) : string :=
  match s with
  | EmptyString => EmptyString
  | String c s' => if isspace c then lstrip s' else s
  end.

Fixpoint rstrip (s : string) : string :=
  match s with
  | EmptyString => EmptyString
  | String c s' =>
      let r := rstrip s' in
      match r with
      | EmptyString => if isspace c then EmptyString else String c EmptyString
      | _ => String c r
      end
  end.

Definition strip (s : string) : string := rstrip (lstrip s).

(** [s.startswith(p)] *)
Fixpoint startswith (s p : string) : bool :=
  match p, s with
  | EmptyString, _ => true
  | String c p', String d s' => Ascii.eqb c d && startswith s' p'
  | String _ _, EmptyString => false
  end.

(** [p in s] *)
Fixpoint contains (p s : string) : bool :=
  startswith s p ||
  match s with
  | EmptyString => false
  | String _ s' => contains p s'
  end.

(** [s.replace(old, new)]: every non-overlapping occurrence, left to right.
    The fuel is the length of [s]; each step consumes at least one
    character. *)
Fixpoint replace_go (fuel : nat) (old new s : string) : string :=
  match fuel with
  | O => s
  | S fuel' =>
      match s with
      | EmptyString => EmptyString
      | String c s' =>
          if startswith s old
          then new +:+ replace_go fuel' old new
                 (String.substring (String.length old)
                    (String.length s - String.length old) s)
          else String c (replace_go fuel' old new s')
      end
  end.

Fixpoint interleave (new s : string) : string :=
  match s with
  | EmptyString => new
  | String c s' => new +:+ String c (interleave new s')
  end.

Definition replace (s old new : string) : string :=
  match old with
  | EmptyString => interleave new s
  | _ => replace_go (String.length s) old new s
  end.

(** [s.split(sep)] for a one-character separator. *)
Fixpoint split_char (sep : ascii) (s : string) : list string :=
  match s with
  | EmptyString => [EmptyString]
  | String c s' =>
      let parts := split_char sep s' in
      if Ascii.eqb c sep then EmptyString :: parts
      else match parts with
           | [] => [String c EmptyString]
           | p :: ps => String c p :: ps
           end
  end.

(** [xs[-1]] on a non-empty list ([split] never returns []). *)
Definition last_item (xs : list string) : string :=
  default EmptyString (last xs).

(** [str(n)] for a non-negative [int]. *)
Definition digit (n : Z) : ascii := chr (48 + Z.to_nat n).

Fixpoint str_nat_go (fuel : nat) (n : Z) (acc : string) : string :=
  match fuel with
  | O => acc
  | S fuel' =>
      let acc' := String (digit (n mod 10)) acc in
      if n <? 10 then acc' else str_nat_go fuel' (n / 10) acc'
  end.

Definition str_int (n : Z) : string :=
  if n <? 0 then String "-" (str_nat_go (S (Z.to_nat (- n))) (- n) EmptyString)
  else str_nat_go (S (Z.to_nat n)) n EmptyString.

(** The prefix of [p] up to and including its last ['/'] ([""] when
    there is none). *)
Fixpoint through_last_slash (p : string) : string :=
  match p with
  | EmptyString => EmptyString
  | String c p' =>
      let r := through_last_slash p' in
      if Ascii.eqb c "/" then String c r
      else match r with EmptyString => EmptyString | _ => String c r end
  end.

Fixpoint all_slashes (s : string) : bool :=
  match s with
  | EmptyString => true
  | String c s' => Ascii.eqb c "/" && all_slashes s'
  end.

Fixpoint rstrip_slash (s : string) : string :=
  match s with
  | EmptyString => EmptyString
  | String c s' =>
      let r := rstrip_slash s' in
      match r with
      | EmptyString => if Ascii.eqb c "/" then EmptyString else String c EmptyString
      | _ => String c r
      end
  end.

(** [posixpath.dirname]:
    [i = p.rfind('/') + 1; head = p[:i];
     if head and head != '/' * len(head): head = head.rstrip('/')]. *)
Definition dirname (p : string) : string :=
  let head := through_last_slash p in
  match head with
  | EmptyString => EmptyString
  | _ => if all_slashes head then head else rstrip_slash head
  end.

(** [posixpath.basename]: the part after the last ['/']. *)
Definition basename (p : string) : string :=
  String.substring (String.length (through_last_slash p))
    (String.length p - String.length (through_last_slash p)) p.

End Py.

(* ------------------------------------------------------------------ *)
(** ** Exceptions *)

(** The exceptions that the calls of the module can raise.  [cause] is
    Python's [__cause__], set by [raise ... from exc]. *)
Inductive exn :=
| ClientError (code : string) (operation : string)     (* botocore *)
| EndpointConnectionError (endpoint_url : string)       (* botocore *)
| ParamValidationError (report : string)                (* botocore *)
| S3UploadFailedError (msg : string)                    (* boto3 *)
| FileNotFoundError (path : string)
| NotADirectoryError (path : string)
| IsADirectoryError (path : string)
| UnidentifiedImageError (msg : string)                 (* PIL *)
| ModuleNotFoundError (name : string)
| ImportError (msg : string) (cause : option exn)
| ValueError (msg : string) (cause : option exn).

(** [str(exc)] *)
Definition exn_str (e : exn) : string :=
  match e with
  | ClientError code op =>
      "An error occurred (" +:+ code +:+ ") when calling the " +:+ op +:+ " operation"
  | EndpointConnectionError url => "Could not connect to the endpoint URL: " +:+ url
  | ParamValidationError r => "Parameter validation failed:" +:+ String (ascii_of_nat 10) r
  | S3UploadFailedError m => m
  | FileNotFoundError p => "[Errno 2] No such file or directory: " +:+ p
  | NotADirectoryError p => "[Errno 20] Not a directory: " +:+ p
  | IsADirectoryError p => "[Errno 21] Is a directory: " +:+ p
  | UnidentifiedImageError m => m
  | ModuleNotFoundError n => "No module named " +:+ n
  | ImportError m _ => m
  | ValueError m _ => m
  end.

Definition exn_cause (e : exn) : option exn :=
  match e with
  | ImportError _ c | ValueError _ c => c
  | _ => None
  end.

Definition is_client_error (e : exn) : bool :=
  match e with ClientError _ _ => true | _ => false end.

(* ------------------------------------------------------------------ *)
(** ** The world: local file system, object store, SDK call log *)

Inductive sdk_call :=
| HeadObject (bucket key : string)
| UploadFile (filename bucket key : string)
| DeleteObject (bucket key : string)
| GeneratePresignedUrl (method bucket key : string) (expires_in : Z).

Record World := mkWorld {
  files : gmap string string;              (** local regular files: path -> bytes *)
  dirs : gset string;                      (** local directories *)
  objects : gmap (string * string) string; (** (bucket, key) -> bytes *)
  backend_up : bool;                       (** the endpoint answers *)
  accepted_keys : gset (string * string);  (** credentials the backend accepts *)
  sdk_log : list sdk_call                  (** SDK calls made, oldest first *)
}.

Definition set_files (w : World) (f : gmap string string) : World :=
  mkWorld f (dirs w) (objects w) (backend_up w) (accepted_keys w) (sdk_log w).
Definition set_dirs (w : World) (d : gset string) : World :=
  mkWorld (files w) d (objects w) (backend_up w) (accepted_keys w) (sdk_log w).
Definition set_objects (w : World) (o : gmap (string * string) string) : World :=
  mkWorld (files w) (dirs w) o (backend_up w) (accepted_keys w) (sdk_log w).
Definition log_call (w : World) (c : sdk_call) : World :=
  mkWorld (files w) (dirs w) (objects w) (backend_up w) (accepted_keys w)
    (sdk_log w ++ [c]).

(* ------------------------------------------------------------------ *)
(** ** State and exception monad *)

Inductive result (A : Type) := Ok (a : A) | Err (e : exn).
Arguments Ok {A} a.
Arguments Err {A} e.

Definition M (A : Type) : Type := World -> result A * World.

Definition ret {A} (a : A) : M A := fun w => (Ok a, w).
Definition raise {A} (e : exn) : M A := fun w => (Err e, w).
Definition bind {A B} (m : M A) (k : A -> M B) : M B :=
  fun w => match m w with
           | (Ok a, w') => k a w'
           | (Err e, w') => (Err e, w')
           end.
Definition get : M World := fun w => (Ok w, w).
Definition put (w : World) : M unit := fun _ => (Ok tt, w).

(** [try: m except <handled> as exc: h(exc)]: unhandled exceptions pass. *)
Definition try_except {A} (handled : exn -> bool) (m : M A) (h : exn -> M A) : M A :=
  fun w => match m w with
           | (Err e, w') => if handled e then h e w' else (Err e, w')
           | r => r
           end.

(** [except Exception]: every exception of the model is an [Exception]. *)
Definition any_exception (_ : exn) : bool := true.

Notation "'let*' x := m 'in' k" := (bind m (fun x => k))
  (at level 200, x name, m at level 100, k at level 200).
Notation "m ;; k" := (bind m (fun _ => k)) (at level 100, k at level 200).

(* ------------------------------------------------------------------ *)
(** ** [os], [os.path] and [shutil] *)

(** [os.stat(p)] (through [os.path.getsize] or [open]): a regular file
    with its bytes, or a directory; a path with a trailing ['/'] only names
    a directory. *)
Inductive stat_result := StatFile (body : string) | StatDir.

Definition os_stat (p : string) : M stat_result :=
  let* w := get in
  let q := Py.rstrip_slash p in
  if bool_decide (q ∈ dirs w) then ret StatDir
  else match files w !! q with
       | Some body => if String.eqb q p then ret (StatFile body)
                      else raise (NotADirectoryError p)
       | None => raise (FileNotFoundError p)
       end.

(** Reasoning about [os_stat] goes through its lemmas; [simpl] would
    unfold [rstrip_slash] on the literal prefix of a path, so neither
    unfolds under [simpl]. *)
Arguments os_stat : simpl never.
Arguments Py.rstrip_slash : simpl never.

Definition os_path_exists (p : string) : M bool :=
  let* w := get in ret (bool_decide (p ∈ dirs w \/ p ∈ dom (files w))).

(** The entries of the file system (files and directories). *)
Definition entries (w : World) : list string :=
  elements (dom (files w)) ++ elements (dirs w).

(** The names listed by [os.listdir(d)] in a world [w]. *)
Definition children (w : World) (d : string) : list string :=
  map Py.basename
    (filter (fun e => Py.dirname e = d /\ e <> d) (entries w)).

Definition os_listdir (d : string) : M (list string) :=
  let* w := get in
  if bool_decide (d ∈ dirs w) then ret (children w d)
  else if bool_decide (d ∈ dom (files w)) then raise (NotADirectoryError d)
  else raise (FileNotFoundError d).

Definition os_remove (p : string) : M unit :=
  let* w := get in
  if bool_decide (p ∈ dom (files w)) then put (set_files w (delete p (files w)))
  else raise (FileNotFoundError p).

(** [shutil.rmtree(d)]: [d] and everything below it. *)
Definition below (d e : string) : bool := Py.startswith e (d +:+ "/").

Definition os_rmtree (d : string) : M unit :=
  let* w := get in
  if bool_decide (d ∈ dirs w) then
    put (set_dirs (set_files w (filter (fun kv => below d kv.1 = false) (files w)))
           (filter (fun e => e <> d /\ below d e = false) (dirs w)))
  else raise (FileNotFoundError d).

(* ------------------------------------------------------------------ *)
(** ** The boto3 client *)

(** [S3Minio(endpoint_url, access_key_id, secret_access_key, bucket_name)]:
    the client configuration and [self.s3_bucket_name]. *)
Record S3Minio := mkS3Minio {
  endpoint_url : string;
  access_key_id : string;
  secret_access_key : string;
  s3_bucket_name : string
}.

Section Boto3.

Variable self : S3Minio.

(** Network and authentication check done by every request. *)
Definition request (op : string) (on_denied : exn) : M unit :=
  let* w := get in
  if negb (backend_up w) then raise (EndpointConnectionError (endpoint_url self))
  else if bool_decide ((access_key_id self, secret_access_key self) ∈ accepted_keys w)
  then ret tt
  else raise on_denied.

(** [s3.head_object(Bucket=bucket, Key=key)]: HEAD; a missing key answers
    404, which botocore raises as a [ClientError].  botocore's rejection of
    an empty key before the request is not modelled here. *)
Definition head_object (bucket key : string) : M unit :=
  let* w := get in
  put (log_call w (HeadObject bucket key)) ;;
  request "HeadObject" (ClientError "403" "HeadObject") ;;
  let* w := get in
  if bool_decide ((bucket, key) ∈ dom (objects w)) then ret tt
  else raise (ClientError "404" "HeadObject").

(** botocore's parameter validation of an empty [Key]. *)
Definition empty_key_error : exn :=
  ParamValidationError "Invalid length for parameter Key, value: 0, valid min length: 1".

(** [s3.upload_file(filename, bucket, key)]: s3transfer takes the size of
    the file ([os.path.getsize]), botocore validates the PutObject
    parameters, the file is opened, then PUT; a [ClientError] of the PUT
    is re-raised by boto3 as [S3UploadFailedError]. *)
Definition upload_file (filename bucket key : string) : M unit :=
  let* w := get in
  put (log_call w (UploadFile filename bucket key)) ;;
  let* st := os_stat filename in
  match key, st with
  | EmptyString, _ => raise empty_key_error
  | _, StatDir => raise (IsADirectoryError filename)
  | _, StatFile body =>
      request "PutObject"
        (S3UploadFailedError ("Failed to upload " +:+ filename +:+ " to "
           +:+ bucket +:+ "/" +:+ key +:+ ": "
           +:+ exn_str (ClientError "AccessDenied" "PutObject"))) ;;
      let* w := get in
      put (set_objects w (<[(bucket, key) := body]> (objects w)))
  end.

(** [s3.delete_object(Bucket=bucket, Key=key)]: botocore rejects an empty
    key before any request; S3 answers 204 also for a missing key. *)
Definition delete_object (bucket key : string) : M unit :=
  let* w := get in
  put (log_call w (DeleteObject bucket key)) ;;
  match key with EmptyString => raise empty_key_error | _ => ret tt end ;;
  request "DeleteObject" (ClientError "AccessDenied" "DeleteObject") ;;
  let* w := get in
  put (set_objects w (delete (bucket, key) (objects w))).

(** [s3.generate_presigned_url('get_object', Params=..., ExpiresIn=n)]:
    signed locally, without a request.  The signing itself (the URL text)
    is the SDK's and is left abstract. *)
Variable sign : S3Minio -> string -> string -> string -> Z -> string.

Definition generate_presigned_url (method bucket key : string) (expires_in : Z)
  : M string :=
  let* w := get in
  put (log_call w (GeneratePresignedUrl method bucket key expires_in)) ;;
  ret (sign self method bucket key expires_in).

End Boto3.

(* ------------------------------------------------------------------ *)
(** ** [S3Minio.upload], [S3Minio.delete], [S3Minio.get_url] *)

(** Outcome of one loop iteration: the body either executed [return v]
    or fell through to the next element. *)
Inductive step (A : Type) := Return (v : A) | Next.
Arguments Return {A} v.
Arguments Next {A}.

(** [for i in args: body(i)] followed by the implicit [return None]. *)
Fixpoint for_loop {A} (body : string -> M (step A)) (args : list string)
  : M (option A) :=
  match args with
  | [] => ret None
  | i :: rest =>
      let* s := body i in
      match s with
      | Return v => ret (Some v)
      | Next => for_loop body rest
      end
  end.

Definition upload_error (exc : exn) : exn :=
  ValueError ("Upload Error: " +:+ exn_str exc) (Some exc).

Definition delete_error (exc : exn) : exn :=
  ValueError ("Delete Error: " +:+ exn_str exc) (Some exc).

Definition staging_path (path : string) : string := "temp/media/" +:+ path.

(** The body of the loop of [upload] (the [print] calls have no effect on
    the state). *)
Definition upload_body (self : S3Minio) (i : string) : M (step bool) :=
  let path := i in
  let file_direct := staging_path path in
  try_except any_exception
    (try_except any_exception
       (upload_file self file_direct (s3_bucket_name self) path)
       (fun exc => raise (upload_error exc)) ;;
     os_remove file_direct ;;
     let dir_local := Py.dirname file_direct in
     let* ex := os_path_exists dir_local in
     (if ex then
        let* names := os_listdir dir_local in
        match names with
        | [] => os_rmtree dir_local
        | _ => ret tt
        end
      else ret tt) ;;
     ret (Return true))
    (fun exc => raise (upload_error exc)).

(** [upload(self, *args)]: [Some true] is [True], [None] is [None]. *)
Definition upload (self : S3Minio) (args : list string) : M (option bool) :=
  for_loop (upload_body self) args.

Definition delete_body (self : S3Minio) (i : string) : M (step bool) :=
  let path := i in
  try_except any_exception
    (delete_object self (s3_bucket_name self) path ;; ret (Return true))
    (fun exc => raise (delete_error exc)).

Definition delete_ (self : S3Minio) (args : list string) : M (option bool) :=
  for_loop (delete_body self) args.

(** [get_url(self, path)]: [except self.s3.exceptions.ClientError] catches
    every [ClientError]. *)
Definition get_url (sign : S3Minio -> string -> string -> string -> Z -> string)
  (self : S3Minio) (path : string) : M (option string) :=
  let bucket_name := s3_bucket_name self in
  try_except is_client_error
    (head_object self bucket_name path ;;
     let* url := generate_presigned_url self sign "get_object" bucket_name path 3600 in
     ret (Some url))
    (fun _ => ret None).

(* ------------------------------------------------------------------ *)
(** ** [S3Minio.webp_converter] *)

(** A Django uploaded image: its [name] attribute and its bytes. *)
Record ImageFile := mkImageFile { name : string; data : string }.

Inductive conv_event :=
| Encoded (ref : nat) (mode : string) (format : string) (quality : Z).

(** The images reachable by the caller (objects shared with it, so a
    rename is visible afterwards) and the re-encodings done. *)
Record ConvState := mkConvState {
  images : gmap nat ImageFile;
  conv_log : list conv_event
}.

Definition extensions : list string := [".jpg"; ".jpeg"; ".png"; ".svg"; ".gif"].

(** [for e in extensions: if e in name: name = name.replace(e, ".webp"); break] *)
Fixpoint rename_ext (exts : list string) (nm : string) : string :=
  match exts with
  | [] => nm
  | e :: es => if Py.contains e nm then Py.replace nm e ".webp" else rename_ext es nm
  end.

Definition convert_error (exc : exn) : exn :=
  ValueError "Converter Error (Exclusive to Django models) | pip install django" (Some exc).

Definition django_import_error : exn :=
  ImportError "Convert Error (Exclusive to Django models) | pip install django django-storages"
    (Some (ModuleNotFoundError "django")).

Section Pillow.

(** PIL's decoded images and the three calls used: [Image.open] (which
    fails on bytes it cannot identify), [img.convert(mode)] and
    [img.save(buffer, format, quality=q)]. *)
Variable Img : Type.
Variable pil_open : string -> option Img.
Variable pil_convert : string -> Img -> Img.
Variable pil_save : Img -> string -> Z -> string.

(** The body of the loop: [Return] carries [ContentFile(buffer.getvalue())]. *)
Definition convert_one (image : nat) (st : ConvState) : result (step string) * ConvState :=
  match images st !! image with
  | None => (Err (convert_error (UnidentifiedImageError "cannot identify image file")), st)
  | Some f =>
      match pil_open (data f) with
      | None => (Err (convert_error (UnidentifiedImageError "cannot identify image file")), st)
      | Some img =>
          let img := pil_convert "RGB" img in
          let buffer := pil_save img "WEBP" 75 in
          let st1 := mkConvState (images st) (conv_log st ++ [Encoded image "RGB" "WEBP" 75]) in
          let f' := mkImageFile (rename_ext extensions (name f)) (data f) in
          (Ok (Return buffer), mkConvState (<[image := f']> (images st1)) (conv_log st1))
      end
  end.

Fixpoint convert_loop (args : list nat) (st : ConvState) : result (option string) * ConvState :=
  match args with
  | [] => (Ok None, st)
  | image :: rest =>
      match convert_one image st with
      | (Ok (Return c), st') => (Ok (Some c), st')
      | (Ok Next, st') => convert_loop rest st'
      | (Err e, st') => (Err e, st')
      end
  end.

(** [webp_converter(self, *args)]; [django_installed] tells whether
    [from django.core.files.base import ContentFile] succeeds. *)
Definition webp_converter (django_installed : bool) (args : list nat) (st : ConvState)
  : result (option string) * ConvState :=
  if negb django_installed then (Err django_import_error, st)
  else convert_loop args st.

End Pillow.

(** A sample codec: bytes are their own decoded image. *)
Definition pil_open0 (d : string) : option string := Some d.
Definition pil_convert0 (mode : string) (img : string) : string := mode +:+ ":" +:+ img.
Definition pil_save0 (img : string) (format : string) (q : Z) : string :=
  format +:+ "(" +:+ Py.str_int q +:+ ")" +:+ img.

(** A codec that identifies no image. *)
Definition pil_open_none (d : string) : option string := None.

Definition conv0 : ConvState :=
  mkConvState (<[0%nat := mkImageFile "a.png" "A"]> (<[1%nat := mkImageFile "b.png" "B"]> ∅)) [].

(* ------------------------------------------------------------------ *)
(** ** [generate_image_filename] *)

(** The fields of [instance.created_at] used by the format. *)
Record DateTime := mkDateTime {
  year : N; month : N; day : N; hour : N; minute : N; second : N
}.

(** [%m], [%d], [%H], [%M], [%S]: two digits, zero padded. *)
Definition pad2 (n : N) : string :=
  if (n <? 10)%N then "0" +:+ Py.str_int (Z.of_N n) else Py.str_int (Z.of_N n).

(** One [strftime] directive (glibc): [%F] is [%Y-%m-%d]; [%Y] is the
    year in decimal. *)
Definition directive (d : ascii) (dt : DateTime) : string :=
  if Ascii.eqb d "Y" then Py.str_int (Z.of_N (year dt))
  else if Ascii.eqb d "m" then pad2 (month dt)
  else if Ascii.eqb d "d" then pad2 (day dt)
  else if Ascii.eqb d "H" then pad2 (hour dt)
  else if Ascii.eqb d "M" then pad2 (minute dt)
  else if Ascii.eqb d "S" then pad2 (second dt)
  else if Ascii.eqb d "F" then
    Py.str_int (Z.of_N (year dt)) +:+ "-" +:+ pad2 (month dt) +:+ "-" +:+ pad2 (day dt)
  else String "%" (String d EmptyString).

Fixpoint strftime (fmt : string) (dt : DateTime) : string :=
  match fmt with
  | EmptyString => EmptyString
  | String c rest =>
      if Ascii.eqb c "%" then
        match rest with
        | EmptyString => String c EmptyString
        | String d rest' => directive d dt +:+ strftime rest' dt
        end
      else String c (strftime rest dt)
  end.

(** The character class [A-Za-z0-9._-]. *)
Definition valid_char (c : ascii) : bool :=
  let n := nat_of_ascii c in
  ((65 <=? n) && (n <=? 90))%nat || ((97 <=? n) && (n <=? 122))%nat
  || ((48 <=? n) && (n <=? 57))%nat
  || Ascii.eqb c "." || Ascii.eqb c "_" || Ascii.eqb c "-".

(** [re.sub(r'[^A-Za-z0-9._-]', '', s)] *)
Fixpoint keep_valid (s : string) : string :=
  match s with
  | EmptyString => EmptyString
  | String c s' => if valid_char c then String c (keep_valid s') else keep_valid s'
  end.

(** [get_valid_filename]: [str(filename).strip().replace(' ', '_')], then
    the [re.sub]. *)
Definition get_valid_filename (filename : string) : string :=
  keep_valid (Py.replace (Py.strip filename) " " "_").

(** [generate_image_filename(instance, filename)]; [class_name] is
    [instance.__class__.__name__] and [random_number] the value drawn by
    [random.randint(1000, 9999)]. *)
Definition generate_image_filename (class_name : string) (created_at : DateTime)
  (filename : string) (random_number : Z) : string :=
  let file_ext := Py.last_item (Py.split_char "." filename) in
  let timestamped_name := strftime "%Y-%m-%d-%H-%M-%S-%F" created_at in
  let valid_filename :=
    get_valid_filename (timestamped_name +:+ "-" +:+ Py.str_int random_number
                        +:+ "." +:+ file_ext) in
  class_name +:+ "/" +:+ timestamped_name +:+ "/" +:+ valid_filename.

(** The sanitization as the specification words it: spaces to underscores,
    then every character outside [A-Za-z0-9._-] removed. *)
Definition spec_sanitize (s : string) : string := keep_valid (Py.replace s " " "_").

(* ------------------------------------------------------------------ *)
(** ** Sample configuration *)

Definition minio0 : S3Minio := mkS3Minio "http://minio:9000" "ak" "sk" "media".

Definition world0 : World :=
  mkWorld (<["temp/media/a.png" := "PNG-A"]> (<["temp/media/b.png" := "PNG-B"]> ∅))
    (list_to_set ["temp"; "temp/media"]) ∅ true {[("ak", "sk")]} [].

Definition world1 : World :=
  mkWorld (<["temp/media/a.png" := "PNG-A"]> ∅)
    (list_to_set ["temp"; "temp/media"]) ∅ true {[("ak", "sk")]} [].

(** A staging file to upload beside a file outside the staging directory. *)
Definition world2 : World :=
  mkWorld (<["temp/media/a.png" := "PNG-A"]> (<["temp/keep.txt" := "K"]> ∅))
    (list_to_set ["temp"; "temp/media"]) ∅ true {[("ak", "sk")]} [].

(* ================================================================== *)
(** * Properties *)

Ltac unfold_monad :=
  unfold bind, ret, raise, get, put, try_except, any_exception in *.

(** Peel the monadic program: evaluate, then split on each test. *)
Ltac run :=
  unfold_monad; simpl in *;
  repeat (case_match; simplify_eq/=; unfold_monad; simpl in *).

(** [os_stat] reads the world and does not change it. *)
Lemma os_stat_state p w r w' : os_stat p w = (r, w') -> w' = w.
Proof.
  unfold os_stat, bind, get, ret, raise.
  repeat case_match; intros; simplify_eq; reflexivity.
Qed.

Lemma os_stat_file p w b w' :
  os_stat p w = (Ok (StatFile b), w') ->
  files w !! p = Some b /\ (p ∉ dirs w) /\ Py.rstrip_slash p = p.
Proof.
  unfold os_stat, bind, get, ret, raise.
  repeat case_match; intros; simplify_eq.
  match goal with H : String.eqb _ _ = true |- _ => apply String.eqb_eq in H end.
  match goal with H : bool_decide _ = false |- _ => apply bool_decide_eq_false in H end.
  match goal with H : Py.rstrip_slash p = p |- _ => rewrite H in * end.
  auto.
Qed.

Lemma os_stat_missing p w :
  Py.rstrip_slash p ∉ dirs w -> files w !! Py.rstrip_slash p = None ->
  os_stat p w = (Err (FileNotFoundError p), w).
Proof.
  intros Hd Hf. unfold os_stat, bind, get, ret, raise.
  rewrite (bool_decide_eq_false_2 _ Hd), Hf. reflexivity.
Qed.


(** Replace each evaluated [os_stat] by what it tells. *)
Ltac stat_facts :=
  repeat match goal with
    | H : os_stat _ _ = (Ok (StatFile _), _) |- _ =>
        let Hf := fresh "Hstat" in let Hd := fresh "Hstat" in let Hs := fresh "Hstat" in
        destruct (os_stat_file _ _ _ _ H) as (Hf & Hd & Hs); apply os_stat_state in H; subst
    | H : os_stat _ _ = (_, _) |- _ => apply os_stat_state in H; subst
    end; simpl in *.

(** One iteration of [upload] always leaves the loop. *)
Lemma upload_body_leaves self i w :
  (exists w', upload_body self i w = (Ok (Return true), w')) \/
  (exists e w', upload_body self i w = (Err e, w')).
Proof.
  unfold upload_body, os_path_exists, os_listdir, os_remove, os_rmtree,
    upload_file, request.
  run; eauto.
Qed.

Lemma delete_body_leaves self i w :
  (exists w', delete_body self i w = (Ok (Return true), w')) \/
  (exists e w', delete_body self i w = (Err e, w')).
Proof.
  unfold delete_body, delete_object, request.
  run; eauto.
Qed.

(** Any loop whose body never falls through only runs its first element. *)
Lemma for_loop_first {A} (body : string -> M (step A)) (v : A) k1 rest w :
  ((exists w', body k1 w = (Ok (Return v), w')) \/
   (exists e w', body k1 w = (Err e, w'))) ->
  for_loop body (k1 :: rest) w = for_loop body [k1] w.
Proof.
  intros [[w' Hb] | [e [w' Hb]]]; unfold for_loop, bind, ret; simpl;
    rewrite Hb; reflexivity.
Qed.

(** What a successful iteration of [upload] has done. *)
Lemma upload_body_success self k w w' :
  upload_body self k w = (Ok (Return true), w') ->
  sdk_log w' = sdk_log w ++ [UploadFile (staging_path k) (s3_bucket_name self) k] /\
  (exists body, files w !! staging_path k = Some body /\
     objects w' = <[(s3_bucket_name self, k) := body]> (objects w)) /\
  (staging_path k ∉ dom (files w')) /\
  (Py.dirname (staging_path k) ∈ dirs w' ->
   children w' (Py.dirname (staging_path k)) <> []).
Proof.
  unfold upload_body, os_path_exists, os_listdir, os_remove, os_rmtree,
    upload_file, request.
  run; stat_facts; intros; eauto.
  all: simplify_eq/=; unfold set_dirs, set_files, set_objects, log_call in *;
    simpl in *.
  all: repeat (apply bool_decide_eq_true in H || apply bool_decide_eq_false in H).
  all: repeat match goal with
         | H : bool_decide _ = true |- _ => apply bool_decide_eq_true in H
         | H : bool_decide _ = false |- _ => apply bool_decide_eq_false in H
         end.
  all: split; [reflexivity|]; split; [eauto|]; split.
  all: try (rewrite dom_delete; set_solver).
  all: try (apply not_elem_of_dom, map_lookup_filter_None_2; left;
            by simplify_map_eq).
  all: try (intros _; match goal with H : children _ _ = _ :: _ |- _ => rewrite H end;
            discriminate).
  all: try (rewrite elem_of_filter; intros [[Hne _] _]; congruence).
  all: intros Hd; exfalso; apply H; left; exact Hd.
Qed.

(** [for_loop] on a one-element list, unfolded. *)
Lemma for_loop_single {A} (body : string -> M (step A)) k w r w' :
  body k w = (r, w') ->
  for_loop body [k] w =
  (match r with
   | Ok (Return v) => Ok (Some v)
   | Ok Next => Ok None
   | Err e => Err e
   end, w').
Proof.
  intros Hb. unfold for_loop, bind, ret; simpl. rewrite Hb.
  destruct r as [[v|]|e]; reflexivity.
Qed.

Lemma upload_single_success self k w w' :
  upload self [k] w = (Ok (Some true), w') ->
  upload_body self k w = (Ok (Return true), w').
Proof.
  unfold upload. destruct (upload_body_leaves self k w) as [[w1 Hb] | [e [w1 Hb]]];
    rewrite (for_loop_single _ _ _ _ _ Hb); intros; simplify_eq; done.
Qed.

(** ** C1 *)

(** C1: with two or more keys, [upload] behaves exactly as with the first
    key alone (same result, same final world); when it succeeds, the SDK
    log gained exactly one request, the upload of the first key's staging
    file, the object is stored under the first key only, and that staging
    file is gone. *)
Theorem upload_processes_only_first self k1 k2 rest w :
  upload self (k1 :: k2 :: rest) w = upload self [k1] w /\
  forall w', upload self (k1 :: k2 :: rest) w = (Ok (Some true), w') ->
    sdk_log w' = sdk_log w ++ [UploadFile (staging_path k1) (s3_bucket_name self) k1] /\
    (exists body, files w !! staging_path k1 = Some body /\
       objects w' = <[(s3_bucket_name self, k1) := body]> (objects w)) /\
    (staging_path k1 ∉ dom (files w')).
Proof.
  assert (Heq : upload self (k1 :: k2 :: rest) w = upload self [k1] w).
  { apply (for_loop_first _ true), upload_body_leaves. }
  split; [exact Heq|].
  intros w' Hup. rewrite Heq in Hup.
  apply upload_single_success, upload_body_success in Hup.
  naive_solver.
Qed.

Lemma upload_processes_only_first_witness :
  let r := upload minio0 ["a.png"; "b.png"] world0 in
  r = (Ok (Some true), snd r) /\
  sdk_log (snd r) = [UploadFile "temp/media/a.png" "media" "a.png"] /\
  (exists body, files world0 !! "temp/media/a.png" = Some body /\
     objects (snd r) = <[("media", "a.png") := body]> (objects world0)) /\
  ("temp/media/a.png" ∉ dom (files (snd r))).
Proof.
  intros r.
  assert (Hr : r = (Ok (Some true), snd r)) by (subst r; vm_compute; reflexivity).
  split; [exact Hr|].
  exact (proj2 (upload_processes_only_first minio0 "a.png" "b.png" [] world0)
           (snd r) Hr).
Defined.

(** ** C4 *)

(** C4: after a successful [upload] of one key, the object is stored in
    the bucket under that key with the staging file's bytes, the staging
    file [temp/media/<key>] no longer exists, and its parent directory is
    either gone or not empty. *)
Theorem upload_single_file_effects self k w w' :
  upload self [k] w = (Ok (Some true), w') ->
  (exists body, files w !! staging_path k = Some body /\
     objects w' !! (s3_bucket_name self, k) = Some body) /\
  (staging_path k ∉ dom (files w')) /\
  (Py.dirname (staging_path k) ∈ dirs w' ->
   children w' (Py.dirname (staging_path k)) <> []).
Proof.
  intros Hup.
  apply upload_single_success, upload_body_success in Hup
    as (_ & (body & Hf & Ho) & Hgone & Hdir).
  split; [|split; assumption].
  exists body. split; [exact Hf|]. rewrite Ho. by simplify_map_eq.
Qed.

Lemma upload_single_file_effects_witness :
  let r := upload minio0 ["a.png"] world1 in
  r = (Ok (Some true), snd r) /\
  ((exists body, files world1 !! "temp/media/a.png" = Some body /\
     objects (snd r) !! ("media", "a.png") = Some body) /\
   ("temp/media/a.png" ∉ dom (files (snd r))) /\
   (Py.dirname "temp/media/a.png" ∈ dirs (snd r) ->
    children (snd r) (Py.dirname "temp/media/a.png") <> [])).
Proof.
  intros r.
  assert (Hr : r = (Ok (Some true), snd r)) by (subst r; vm_compute; reflexivity).
  split; [exact Hr|].
  exact (upload_single_file_effects minio0 "a.png" world1 (snd r) Hr).
Defined.

(** ** C5 *)

(** C5: with two or more keys, [delete] behaves exactly as with the first
    key alone; when it succeeds it returns [True] and the SDK log gained one
    request, the deletion of the first key. *)
Theorem delete_processes_only_first self k1 k2 rest w :
  delete_ self (k1 :: k2 :: rest) w = delete_ self [k1] w /\
  forall r w', delete_ self (k1 :: k2 :: rest) w = (r, w') ->
    r = Ok (Some true) ->
    sdk_log w' = sdk_log w ++ [DeleteObject (s3_bucket_name self) k1] /\
    objects w' = delete (s3_bucket_name self, k1) (objects w).
Proof.
  assert (Heq : delete_ self (k1 :: k2 :: rest) w = delete_ self [k1] w).
  { apply (for_loop_first _ true), delete_body_leaves. }
  split; [exact Heq|].
  intros r w' Hd ->. rewrite Heq in Hd.
  unfold delete_, for_loop, delete_body, delete_object, request in Hd.
  run; done.
Qed.

Lemma delete_processes_only_first_witness :
  let r := delete_ minio0 ["a.png"; "b.png"] world0 in
  fst r = Ok (Some true) /\
  sdk_log (snd r) = [DeleteObject "media" "a.png"] /\
  objects (snd r) = delete ("media", "a.png") (objects world0).
Proof.
  intros r.
  assert (Hr : fst r = Ok (Some true)) by (subst r; vm_compute; reflexivity).
  split; [exact Hr|].
  exact (proj2 (delete_processes_only_first minio0 "a.png" "b.png" [] world0)
           (fst r) (snd r) (surjective_pairing r) Hr).
Defined.

(** ** C10 *)

(** C10: with no key, [upload] and [delete] make no request, leave the
    world unchanged and return [None]. *)
Theorem upload_delete_empty self w :
  upload self [] w = (Ok None, w) /\ delete_ self [] w = (Ok None, w).
Proof. split; reflexivity. Qed.

(** ** C6 *)

Definition world_down : World :=
  mkWorld (files world0) (dirs world0) (objects world0) false
    (accepted_keys world0) [].

(** C6 (the code at the failing input): when the endpoint is unreachable,
    [upload] raises a [ValueError] whose direct cause is another
    [ValueError], not the SDK's [EndpointConnectionError]: the outer
    [except Exception] catches the inner [ValueError] and wraps it again. *)
Lemma upload_error_double_wrap :
  let orig := EndpointConnectionError "http://minio:9000" in
  fst (upload minio0 ["a.png"] world_down) = Err (upload_error (upload_error orig)) /\
  exn_cause (upload_error (upload_error orig)) <> Some orig.
Proof. split; [vm_compute; reflexivity | discriminate]. Qed.

(** X17: every exception of the SDK call is re-raised, never swallowed,
    with the state at the time of the failure: by [delete] as
    [ValueError("Delete Error: <exc>")] caused by the SDK exception; by
    [upload] wrapped twice, as [ValueError("Upload Error: Upload Error:
    <exc>")] caused by [ValueError("Upload Error: <exc>")], itself caused by
    the SDK exception. *)
Theorem sdk_errors_rewrapped self k rest w e w1 :
  (upload_file self (staging_path k) (s3_bucket_name self) k w = (Err e, w1) ->
   upload self (k :: rest) w = (Err (upload_error (upload_error e)), w1) /\
   exn_cause (upload_error (upload_error e)) = Some (upload_error e) /\
   exn_cause (upload_error e) = Some e) /\
  (delete_object self (s3_bucket_name self) k w = (Err e, w1) ->
   delete_ self (k :: rest) w = (Err (delete_error e), w1) /\
   exn_cause (delete_error e) = Some e).
Proof.
  split; intros H; (split; [|done]).
  - unfold upload, for_loop, upload_body, bind, try_except, raise; simpl.
    rewrite H. reflexivity.
  - unfold delete_, for_loop, delete_body, bind, try_except, raise; simpl.
    rewrite H. reflexivity.
Qed.

Lemma sdk_errors_rewrapped_witness :
  let orig := EndpointConnectionError "http://minio:9000" in
  upload_file minio0 "temp/media/a.png" "media" "a.png" world_down =
    (Err orig, snd (upload_file minio0 "temp/media/a.png" "media" "a.png" world_down)) /\
  upload minio0 ["a.png"] world_down =
    (Err (upload_error (upload_error orig)),
     snd (upload_file minio0 "temp/media/a.png" "media" "a.png" world_down)).
Proof.
  intros orig.
  assert (H : upload_file minio0 "temp/media/a.png" "media" "a.png" world_down =
    (Err orig, snd (upload_file minio0 "temp/media/a.png" "media" "a.png" world_down)))
    by (vm_compute; reflexivity).
  split; [exact H|].
  exact (proj1 (proj1 (sdk_errors_rewrapped minio0 "a.png" [] world_down orig _) H)).
Defined.

(** [String.append] does not unfold under [simpl] (stdpp makes it
    [simpl never]); these are its two equations. *)
Lemma append_nil (b : string) : EmptyString +:+ b = b.
Proof. reflexivity. Qed.

Lemma append_cons x (a b : string) : String x a +:+ b = String x (a +:+ b).
Proof. reflexivity. Qed.

Ltac str_simpl := rewrite ?append_nil, ?append_cons; simpl.

Lemma append_assoc_str (a b c : string) : (a +:+ b) +:+ c = a +:+ (b +:+ c).
Proof. induction a as [|x a IH]; str_simpl; [reflexivity | by rewrite IH]. Qed.

(** ** C2 *)

(** A sample signer standing for boto3's: path-style URL with the expiry. *)
Definition sign0 (s : S3Minio) (method bucket key : string) (expires_in : Z) : string :=
  endpoint_url s +:+ "/" +:+ bucket +:+ "/" +:+ key +:+ "?X-Amz-Expires="
  +:+ Py.str_int expires_in.

Definition world_get : World :=
  mkWorld ∅ ∅ {[("media", "a.png") := "PNG-A"]} true {[("ak", "sk")]} [].













(** ** C3 *)





(** ** C8 *)

(** C8 (the code at the failing input): with Django installed and the two
    images [a.png] and [b.png], [webp_converter] re-encodes and renames
    only the first one; the second keeps its name and is never
    re-encoded, and only the first image's WEBP content is returned. *)
Theorem webp_converter_two_images :
  webp_converter _ pil_open0 pil_convert0 pil_save0 true [0; 1]%nat conv0 =
  (Ok (Some (pil_save0 (pil_convert0 "RGB" "A") "WEBP" 75)),
   mkConvState (<[0%nat := mkImageFile "a.webp" "A"]> (images conv0))
     [Encoded 0 "RGB" "WEBP" 75]) /\
  name <$> images (snd (webp_converter _ pil_open0 pil_convert0 pil_save0 true
                          [0; 1]%nat conv0)) !! 1%nat = Some "b.png".
Proof. split; vm_compute; reflexivity. Qed.

(** The loop of [webp_converter] never goes past its first image. *)
Lemma webp_converter_first_only Img po pc ps dj image rest st :
  webp_converter Img po pc ps dj (image :: rest) st =
  webp_converter Img po pc ps dj [image] st.
Proof.
  unfold webp_converter. destruct dj; simpl; [|reflexivity].
  unfold convert_one. repeat case_match; simplify_eq/=; reflexivity.
Qed.

(** ** C9 *)

(** C9: without Django, [webp_converter] raises the [ImportError] that
    wraps the failed import, for every argument list, before touching any
    image: the images and the encoding log are unchanged. *)
Theorem webp_converter_requires_django Img po pc ps args st :
  webp_converter Img po pc ps false args st = (Err django_import_error, st) /\
  exn_cause django_import_error = Some (ModuleNotFoundError "django").
Proof. split; reflexivity. Qed.

(** ** Facts on the string helpers *)

Fixpoint all_valid (s : string) : bool :=
  match s with
  | EmptyString => true
  | String c s' => valid_char c && all_valid s'
  end.

Fixpoint all_digits (s : string) : bool :=
  match s with
  | EmptyString => true
  | String c s' =>
      ((48 <=? nat_of_ascii c) && (nat_of_ascii c <=? 57))%nat && all_digits s'
  end.

(** [s.replace(c, new)] for a one-character [c], as a map on characters. *)
Fixpoint subst_char (c : ascii) (new s : string) : string :=
  match s with
  | EmptyString => EmptyString
  | String d s' =>
      if Ascii.eqb c d then new +:+ subst_char c new s' else String d (subst_char c new s')
  end.

Lemma valid_char_not_space c : valid_char c = true -> Py.isspace c = false.
Proof. destruct c as [[] [] [] [] [] [] [] []]; vm_compute; congruence. Qed.

Lemma all_valid_app a b : all_valid (a +:+ b) = all_valid a && all_valid b.
Proof. induction a as [|x a IH]; str_simpl; [reflexivity|]. by rewrite IH, andb_assoc. Qed.

Lemma keep_valid_app a b : keep_valid (a +:+ b) = keep_valid a +:+ keep_valid b.
Proof. induction a as [|x a IH]; str_simpl; [reflexivity|]. by destruct (valid_char x); rewrite IH. Qed.

Lemma keep_valid_id a : all_valid a = true -> keep_valid a = a.
Proof.
  induction a as [|x a IH]; simpl; [reflexivity|].
  intros H. apply andb_prop in H as [Hx Ha]. rewrite Hx, IH by exact Ha. reflexivity.
Qed.

Lemma keep_valid_valid a : all_valid (keep_valid a) = true.
Proof.
  induction a as [|x a IH]; simpl; [reflexivity|].
  destruct (valid_char x) eqn:Hx; simpl; [rewrite Hx|]; auto.
Qed.

Lemma subst_char_app c new a b :
  subst_char c new (a +:+ b) = subst_char c new a +:+ subst_char c new b.
Proof.
  induction a as [|x a IH]; simpl; [reflexivity|].
  destruct (Ascii.eqb c x); rewrite IH; [|reflexivity].
  by rewrite append_assoc_str.
Qed.

Lemma subst_space_valid new a : all_valid a = true -> subst_char " " new a = a.
Proof.
  induction a as [|x a IH]; cbn [subst_char all_valid]; [reflexivity|].
  intros H. apply andb_prop in H as [Hx Ha].
  destruct (Ascii.eqb " " x) eqn:E.
  - apply Ascii.eqb_eq in E. subst x. vm_compute in Hx. discriminate Hx.
  - by rewrite IH.
Qed.

Lemma substring_full s : String.substring 0 (String.length s) s = s.
Proof. induction s as [|x s IH]; simpl; [reflexivity | by rewrite IH]. Qed.

Lemma replace_go_single c new fuel s :
  (String.length s <= fuel)%nat ->
  Py.replace_go fuel (String c EmptyString) new s = subst_char c new s.
Proof.
  revert s. induction fuel as [|fuel IH]; intros s Hlen.
  - destruct s; simpl in *; [reflexivity | lia].
  - destruct s as [|d s]; simpl; [reflexivity|].
    simpl in Hlen.
    replace (Py.startswith s EmptyString) with true by (destruct s; reflexivity).
    rewrite andb_true_r.
    destruct (Ascii.eqb c d).
    + rewrite Nat.sub_0_r, substring_full, IH by lia. reflexivity.
    + rewrite IH by lia. reflexivity.
Qed.

Lemma replace_single s c new :
  Py.replace s (String c EmptyString) new = subst_char c new s.
Proof. apply replace_go_single. lia. Qed.

Lemma rstrip_app a b :
  Py.rstrip b <> EmptyString -> Py.rstrip (a +:+ b) = a +:+ Py.rstrip b.
Proof.
  intros Hb. induction a as [|x a IH]; simpl; [reflexivity|].
  rewrite IH. destruct a; simpl; [destruct (Py.rstrip b); [congruence | reflexivity]
                                  | reflexivity].
Qed.

Lemma rstrip_dot ext : Py.rstrip (String "." ext) = String "." (Py.rstrip ext).
Proof. simpl. destruct (Py.rstrip ext); reflexivity. Qed.

(** [get_valid_filename] on a valid prefix, a dot and an extension. *)
Lemma get_valid_filename_split a ext :
  a <> EmptyString -> all_valid a = true ->
  get_valid_filename (a +:+ String "." ext) =
  a +:+ String "." (keep_valid (Py.replace (Py.rstrip ext) " " "_")).
Proof.
  intros Hne Hv. unfold get_valid_filename, Py.strip.
  assert (Hl : Py.lstrip (a +:+ String "." ext) = a +:+ String "." ext).
  { destruct a as [|x a]; [congruence|]. simpl in *.
    apply andb_prop in Hv as [Hx _]. by rewrite valid_char_not_space. }
  rewrite Hl, rstrip_app by (rewrite rstrip_dot; discriminate).
  rewrite rstrip_dot, !replace_single, subst_char_app, subst_space_valid by exact Hv.
  rewrite keep_valid_app, keep_valid_id by exact Hv. reflexivity.
Qed.

Lemma digit_valid n : 0 <= n < 10 ->
  valid_char (Py.digit n) = true /\ all_digits (String (Py.digit n) EmptyString) = true.
Proof.
  intros Hn.
  assert (Hall : forallb (fun k => valid_char (Py.chr (48 + k))
                                   && all_digits (String (Py.chr (48 + k)) EmptyString))
                   (seq 0 10) = true) by reflexivity.
  rewrite forallb_forall in Hall.
  specialize (Hall (Z.to_nat n)).
  apply andb_prop, Hall, in_seq. lia.
Qed.

Lemma str_nat_go_valid fuel n acc :
  0 <= n -> all_valid acc = true -> all_digits acc = true ->
  all_valid (Py.str_nat_go fuel n acc) = true /\
  all_digits (Py.str_nat_go fuel n acc) = true.
Proof.
  revert n acc. induction fuel as [|fuel IH]; intros n acc Hn Hv Hd; cbn [Py.str_nat_go]; [auto|].
  destruct (digit_valid (n mod 10)) as [Hv1 Hd1]; [apply Z.mod_pos_bound; lia|].
  cbn [all_digits] in Hd1. rewrite andb_true_r in Hd1.
  destruct (n <? 10); [cbn [all_valid all_digits]; rewrite Hv1, Hd1; auto|].
  apply IH; [apply Z.div_pos; lia | cbn [all_valid]; rewrite Hv1; auto
            | cbn [all_digits]; rewrite Hd1; auto].
Qed.

Lemma str_nat_go_nonempty fuel n acc :
  acc <> EmptyString -> Py.str_nat_go fuel n acc <> EmptyString.
Proof.
  revert n acc. induction fuel as [|fuel IH]; intros n acc Hacc; simpl; [exact Hacc|].
  destruct (n <? 10); [discriminate | apply IH; discriminate].
Qed.

Lemma str_int_valid n : 0 <= n ->
  Py.str_int n <> EmptyString /\
  all_valid (Py.str_int n) = true /\ all_digits (Py.str_int n) = true.
Proof.
  intros Hn. unfold Py.str_int.
  replace (n <? 0) with false by (symmetry; apply Z.ltb_ge; lia).
  cbn [Py.str_nat_go].
  destruct (digit_valid (n mod 10)) as [Hv1 Hd1]; [apply Z.mod_pos_bound; lia|].
  cbn [all_digits] in Hd1. rewrite andb_true_r in Hd1.
  destruct (n <? 10).
  - cbn [all_valid all_digits]. rewrite Hv1, Hd1. repeat split; discriminate.
  - split; [apply str_nat_go_nonempty; discriminate|].
    apply str_nat_go_valid; [apply Z.div_pos; lia | cbn [all_valid]; rewrite Hv1
                            | cbn [all_digits]; rewrite Hd1];
      reflexivity.
Qed.

Lemma pad2_valid n : pad2 n <> EmptyString /\ all_valid (pad2 n) = true.
Proof.
  destruct (str_int_valid (Z.of_N n)) as (Hne & Hv & _); [lia|].
  unfold pad2. destruct (n <? 10)%N; [|auto].
  split; [discriminate | rewrite all_valid_app, Hv; reflexivity].
Qed.

(** The timestamp of [generate_image_filename] is non-empty and made of
    digits and dashes only. *)
Lemma timestamp_valid dt :
  strftime "%Y-%m-%d-%H-%M-%S-%F" dt <> EmptyString /\
  all_valid (strftime "%Y-%m-%d-%H-%M-%S-%F" dt) = true.
Proof.
  destruct (str_int_valid (Z.of_N (year dt))) as (Hne & Hy & _); [lia|].
  cbn [strftime Ascii.eqb Bool.eqb directive].
  unfold directive; cbn [Ascii.eqb Bool.eqb].
  split.
  - destruct (Py.str_int (Z.of_N (year dt))); [congruence | discriminate].
  - assert (Hd : forall x, all_valid (String "-" x) = all_valid x) by reflexivity.
    repeat (rewrite all_valid_app || rewrite Hd || rewrite Hy
            || rewrite (proj2 (pad2_valid _))).
    reflexivity.
Qed.

(** Python's [random.randint(1000, 9999)] values print with four digits. *)
Lemma str_int_four_digits_check :
  forallb (fun k => Nat.eqb (String.length (Py.str_int (Z.of_nat k))) 4)
    (seq (N.to_nat 1000) (N.to_nat 9000)) = true.
Proof. vm_compute. reflexivity. Qed.

Lemma str_int_four_digits r :
  1000 <= r <= 9999 ->
  String.length (Py.str_int r) = 4%nat /\ all_digits (Py.str_int r) = true.
Proof.
  intros Hr. split; [|destruct (str_int_valid r) as (_ & _ & Hd); [lia | exact Hd]].
  pose proof str_int_four_digits_check as H.
  rewrite forallb_forall in H.
  specialize (H (Z.to_nat r)). rewrite Z2Nat.id in H by lia.
  apply Nat.eqb_eq, H, in_seq. lia.
Qed.

(** ** C7 *)

Definition created0 : DateTime := mkDateTime 2024 1 2 3 4 5.

(** C7 (counterexample): for [photo.JPG ] (a trailing space), the code
    strips the space before replacing spaces, so the last segment ends in
    [.JPG]; replacing spaces with underscores and then removing the other
    characters, as the claim says, would end it in [.JPG_]. *)
Lemma generate_image_filename_strip_counterexample :
  let ts := strftime "%Y-%m-%d-%H-%M-%S-%F" created0 in
  generate_image_filename "Post" created0 "photo.JPG " 1234 =
    "Post/2024-01-02-03-04-05-2024-01-02/2024-01-02-03-04-05-2024-01-02-1234.JPG" /\
  spec_sanitize (ts +:+ "-" +:+ "1234" +:+ "." +:+ "JPG ") =
    "2024-01-02-03-04-05-2024-01-02-1234.JPG_" /\
  generate_image_filename "Post" created0 "photo.JPG " 1234 <>
    "Post" +:+ "/" +:+ ts +:+ "/" +:+ spec_sanitize (ts +:+ "-" +:+ "1234" +:+ "." +:+ "JPG ").
Proof. split; [|split]; vm_compute; [reflexivity | reflexivity | discriminate]. Qed.

(** C7 (amended): the path is [<class>/<ts>/<ts>-<r>.<e>] where [ts] is
    [created_at] formatted with [%Y-%m-%d-%H-%M-%S-%F], [r] the random
    number, which has exactly four digits, and [e] the text after the
    filename's last dot with trailing whitespace stripped, then spaces
    replaced by underscores, then every character outside [A-Za-z0-9._-]
    removed; the whole last segment has only characters of that class. *)
Theorem generate_image_filename_shape cls dt filename r :
  1000 <= r <= 9999 ->
  let ts := strftime "%Y-%m-%d-%H-%M-%S-%F" dt in
  let ext := Py.last_item (Py.split_char "." filename) in
  generate_image_filename cls dt filename r =
    cls +:+ "/" +:+ ts +:+ "/" +:+ ts +:+ "-" +:+ Py.str_int r +:+ "." +:+
      keep_valid (Py.replace (Py.rstrip ext) " " "_") /\
  String.length (Py.str_int r) = 4%nat /\ all_digits (Py.str_int r) = true /\
  all_valid (get_valid_filename (ts +:+ "-" +:+ Py.str_int r +:+ "." +:+ ext)) = true.
Proof.
  intros Hr ts ext.
  destruct (str_int_four_digits r Hr) as [Hlen Hdig].
  destruct (str_int_valid r) as (_ & Hrv & _); [lia|].
  destruct (timestamp_valid dt) as [Htne Htv]. fold ts in Htne, Htv.
  split; [|split; [exact Hlen | split; [exact Hdig | apply keep_valid_valid]]].
  unfold generate_image_filename. fold ts ext.
  replace (ts +:+ "-" +:+ Py.str_int r +:+ "." +:+ ext)
    with ((ts +:+ String "-" (Py.str_int r)) +:+ String "." ext)
    by (rewrite append_assoc_str; reflexivity).
  rewrite get_valid_filename_split.
  - rewrite append_assoc_str. reflexivity.
  - destruct ts; [congruence | discriminate].
  - rewrite all_valid_app, Htv. exact Hrv.
Qed.

Lemma generate_image_filename_shape_witness :
  generate_image_filename "Post" created0 "My Photo #1.JPG" 1234 =
    "Post" +:+ "/" +:+ strftime "%Y-%m-%d-%H-%M-%S-%F" created0 +:+ "/"
    +:+ strftime "%Y-%m-%d-%H-%M-%S-%F" created0 +:+ "-" +:+ Py.str_int 1234 +:+ "."
    +:+ keep_valid (Py.replace (Py.rstrip "JPG") " " "_").
Proof.
  exact (proj1 (generate_image_filename_shape "Post" created0 "My Photo #1.JPG" 1234
                  ltac:(lia))).
Defined.

(* ================================================================== *)
(** * Further properties of the module *)

(** ** Facts on the SDK calls *)

Ltac run_all := run; stat_facts; intros; simplify_eq/=;
  unfold set_dirs, set_files, set_objects, log_call in *; simpl in *.

Lemma upload_file_missing self f b k w :
  Py.rstrip_slash f ∉ dirs w -> files w !! Py.rstrip_slash f = None ->
  upload_file self f b k w = (Err (FileNotFoundError f), log_call w (UploadFile f b k)).
Proof.
  intros Hd Hf. unfold upload_file. unfold_monad; simpl.
  rewrite (os_stat_missing f (log_call w (UploadFile f b k)) Hd Hf). reflexivity.
Qed.

(** After a successful iteration of [upload], nothing is left at the
    staging path. *)
Lemma upload_body_success_gone self k w w' :
  upload_body self k w = (Ok (Return true), w') ->
  (Py.rstrip_slash (staging_path k) ∉ dirs w') /\
  files w' !! Py.rstrip_slash (staging_path k) = None.
Proof.
  intros Hup.
  destruct (upload_body_success _ _ _ _ Hup) as (_ & _ & Hgone & _).
  revert Hup.
  unfold upload_body, os_path_exists, os_listdir, os_remove, os_rmtree,
    upload_file, request.
  run_all.
  all: match goal with H : Py.rstrip_slash _ = _ |- _ => rewrite H in * end.
  all: split; [|by apply not_elem_of_dom].
  all: rewrite ?elem_of_filter; tauto.
Qed.

Lemma upload_file_error_state self f b k w e w1 :
  upload_file self f b k w = (Err e, w1) ->
  files w1 = files w /\ dirs w1 = dirs w /\ objects w1 = objects w.
Proof. unfold upload_file, request. run_all; auto. Qed.

Lemma upload_body_success_backend self k w w' :
  upload_body self k w = (Ok (Return true), w') ->
  backend_up w' = true /\
  (access_key_id self, secret_access_key self) ∈ accepted_keys w'.
Proof.
  unfold upload_body, os_path_exists, os_listdir, os_remove, os_rmtree,
    upload_file, request.
  run_all; repeat match goal with
         | H : bool_decide _ = true |- _ => apply bool_decide_eq_true in H
         end;
    (split; [destruct (backend_up w); simpl in *; congruence | assumption]).
Qed.

Lemma delete_single_cases self k w r w' :
  delete_ self [k] w = (r, w') ->
  (r = Ok (Some true) /\ backend_up w' = true /\
   (access_key_id self, secret_access_key self) ∈ accepted_keys w' /\
   objects w' = delete (s3_bucket_name self, k) (objects w)) \/
  ((exists e, r = Err e) /\ objects w' = objects w).
Proof.
  unfold delete_, for_loop, delete_body, delete_object, request.
  run_all; repeat match goal with
         | H : bool_decide _ = true |- _ => apply bool_decide_eq_true in H
         end; eauto.
  left. repeat split; auto. destruct (backend_up w); simpl in *; congruence.
Qed.

Lemma get_url_present_h sign self path w :
  backend_up w = true ->
  (access_key_id self, secret_access_key self) ∈ accepted_keys w ->
  (s3_bucket_name self, path) ∈ dom (objects w) ->
  fst (get_url sign self path w) =
    Ok (Some (sign self "get_object" (s3_bucket_name self) path 3600)).
Proof.
  intros Hup Hacc Hin.
  unfold get_url, head_object, generate_presigned_url, request.
  unfold_monad; simpl. rewrite Hup; simpl.
  rewrite (bool_decide_eq_true_2 _ Hacc); simpl.
  rewrite (bool_decide_eq_true_2 _ Hin). reflexivity.
Qed.

Lemma get_url_absent_h sign self path w :
  backend_up w = true ->
  (access_key_id self, secret_access_key self) ∈ accepted_keys w ->
  (s3_bucket_name self, path) ∉ dom (objects w) ->
  fst (get_url sign self path w) = Ok None.
Proof.
  intros Hup Hacc Hout.
  unfold get_url, head_object, generate_presigned_url, request.
  unfold_monad; simpl. rewrite Hup; simpl.
  rewrite (bool_decide_eq_true_2 _ Hacc); simpl.
  rewrite (bool_decide_eq_false_2 _ Hout). reflexivity.
Qed.

(** ** Upload *)











(** X2: when the SDK upload fails, [upload] raises and the local files,
    the local directories and the bucket are exactly as before. *)
Theorem upload_sdk_failure_keeps_state self k rest w e w1 :
  upload_file self (staging_path k) (s3_bucket_name self) k w = (Err e, w1) ->
  exists e', upload self (k :: rest) w = (Err e', w1) /\
  files w1 = files w /\ dirs w1 = dirs w /\ objects w1 = objects w.
Proof.
  intros H. exists (upload_error (upload_error e)). split.
  - unfold upload, for_loop, upload_body, bind, try_except, raise; simpl.
    rewrite H. reflexivity.
  - exact (upload_file_error_state _ _ _ _ _ _ _ H).
Qed.

Lemma upload_sdk_failure_keeps_state_witness :
  exists e', upload minio0 ["a.png"] world_down =
    (Err e', snd (upload_file minio0 "temp/media/a.png" "media" "a.png" world_down)) /\
  files world_down = files world_down /\ dirs world_down = dirs world_down /\
  objects world_down = objects world_down.
Proof.
  destruct (upload_sdk_failure_keeps_state minio0 "a.png" [] world_down
              (EndpointConnectionError "http://minio:9000")
              (snd (upload_file minio0 "temp/media/a.png" "media" "a.png" world_down)))
    as (e' & He & _); [vm_compute; reflexivity|].
  exists e'. split; [exact He | auto].
Defined.

(** X3: whatever its outcome, [upload] changes the bucket at most at the
    first key: every other object is left as it was. *)
Theorem upload_touches_only_first_key self k rest w r w' :
  upload self (k :: rest) w = (r, w') ->
  forall x, x <> (s3_bucket_name self, k) -> objects w' !! x = objects w !! x.
Proof.
  unfold upload. rewrite (for_loop_first _ true _ _ _ (upload_body_leaves self k w)).
  unfold for_loop, upload_body, os_path_exists, os_listdir, os_remove, os_rmtree,
    upload_file, request.
  run; stat_facts; intros; by simplify_map_eq.
Qed.

Lemma upload_touches_only_first_key_witness :
  objects (snd (upload minio0 ["a.png"; "b.png"] world0)) !! ("media", "b.png") =
  objects world0 !! ("media", "b.png").
Proof.
  apply (upload_touches_only_first_key minio0 "a.png" ["b.png"] world0
           (fst (upload minio0 ["a.png"; "b.png"] world0))
           (snd (upload minio0 ["a.png"; "b.png"] world0))).
  - apply surjective_pairing.
  - discriminate.
Defined.

(** X5: the staging file is consumed: a second [upload] of the same key
    after a successful one raises [FileNotFoundError] (wrapped twice) and
    leaves the bucket as the first upload left it. *)
Theorem upload_twice_fails self k w w' :
  upload self [k] w = (Ok (Some true), w') ->
  upload self [k] w' =
    (Err (upload_error (upload_error (FileNotFoundError (staging_path k)))),
     log_call w' (UploadFile (staging_path k) (s3_bucket_name self) k)) /\
  objects (log_call w' (UploadFile (staging_path k) (s3_bucket_name self) k)) = objects w'.
Proof.
  intros Hup. apply upload_single_success, upload_body_success_gone in Hup
    as [Hd Hf].
  split; [|reflexivity].
  unfold upload, for_loop, upload_body, bind, try_except, raise; simpl.
  rewrite (upload_file_missing _ _ _ _ _ Hd Hf). reflexivity.
Qed.

Lemma upload_twice_fails_witness :
  fst (upload minio0 ["a.png"] (snd (upload minio0 ["a.png"] world1))) =
    Err (upload_error (upload_error (FileNotFoundError "temp/media/a.png"))).
Proof.
  rewrite (proj1 (upload_twice_fails minio0 "a.png" world1
                    (snd (upload minio0 ["a.png"] world1)) ltac:(vm_compute; reflexivity))).
  reflexivity.
Defined.

(** ** Delete *)

(** X6: after a successful [delete] of a key, [get_url] for that key
    returns [None]. *)
Theorem delete_then_get_url sign self k w w' :
  delete_ self [k] w = (Ok (Some true), w') ->
  fst (get_url sign self k w') = Ok None.
Proof.
  intros Hd. apply delete_single_cases in Hd as [(_ & Hb & Hacc & Ho) | [[e He] _]];
    [|discriminate].
  apply get_url_absent_h; [exact Hb | exact Hacc|].
  rewrite Ho, dom_delete. set_solver.
Qed.

Lemma delete_then_get_url_witness :
  fst (get_url sign0 minio0 "a.png" (snd (delete_ minio0 ["a.png"] world_get))) = Ok None.
Proof.
  apply (delete_then_get_url sign0 minio0 "a.png" world_get).
  vm_compute. reflexivity.
Defined.

(** X7: [delete] changes the bucket at most at the first key, and a failed
    [delete] leaves the bucket unchanged. *)
Theorem delete_touches_only_first_key self k rest w r w' :
  delete_ self (k :: rest) w = (r, w') ->
  (forall x, x <> (s3_bucket_name self, k) -> objects w' !! x = objects w !! x) /\
  (forall e, r = Err e -> objects w' = objects w).
Proof.
  unfold delete_. rewrite (for_loop_first _ true _ _ _ (delete_body_leaves self k w)).
  fold (delete_ self [k]). intros Hd.
  apply delete_single_cases in Hd as [(-> & _ & _ & Ho) | [_ Ho]]; rewrite Ho.
  - split; [intros x Hx; by rewrite lookup_delete_ne | discriminate].
  - auto.
Qed.

Lemma delete_touches_only_first_key_witness :
  objects (snd (delete_ minio0 ["a.png"] world_down)) = objects world_down.
Proof.
  apply (proj2 (delete_touches_only_first_key minio0 "a.png" [] world_down
           (fst (delete_ minio0 ["a.png"] world_down))
           (snd (delete_ minio0 ["a.png"] world_down)) (surjective_pairing _))
           (delete_error (EndpointConnectionError "http://minio:9000"))).
  vm_compute. reflexivity.
Defined.

(** ** Presigned URLs *)

(** X8: [get_url] is read-only: local files, directories and the bucket
    are unchanged; it always sends the HEAD probe, and asks the SDK for a
    presigned URL only when it returns one. *)
Theorem get_url_read_only sign self path w r w' :
  get_url sign self path w = (r, w') ->
  files w' = files w /\ dirs w' = dirs w /\ objects w' = objects w /\
  sdk_log w' =
    sdk_log w ++ HeadObject (s3_bucket_name self) path ::
      match r with
      | Ok (Some _) => [GeneratePresignedUrl "get_object" (s3_bucket_name self) path 3600]
      | _ => []
      end.
Proof.
  unfold get_url, head_object, generate_presigned_url, request.
  run_all; repeat split; try (rewrite <- app_assoc; reflexivity); reflexivity.
Qed.

Lemma get_url_read_only_witness :
  sdk_log (snd (get_url sign0 minio0 "a.png" world_get)) =
    sdk_log world_get ++
      [HeadObject "media" "a.png"; GeneratePresignedUrl "get_object" "media" "a.png" 3600].
Proof.
  exact (proj2 (proj2 (proj2 (get_url_read_only sign0 minio0 "a.png" world_get
           (fst (get_url sign0 minio0 "a.png" world_get))
           (snd (get_url sign0 minio0 "a.png" world_get)) (surjective_pairing _))))).
Defined.

(** ** Local files *)

(** X9: [upload] never touches a local file other than the staging file
    [temp/media/<key>] and what lies below the staging file's directory,
    whatever the outcome. *)
Theorem upload_keeps_other_files self k rest w r w' :
  upload self (k :: rest) w = (r, w') ->
  forall f, f <> staging_path k -> below (Py.dirname (staging_path k)) f = false ->
  files w' !! f = files w !! f.
Proof.
  unfold upload. rewrite (for_loop_first _ true _ _ _ (upload_body_leaves self k w)).
  intros Hup f Hf Hb. revert Hup.
  unfold for_loop, upload_body, os_path_exists, os_listdir, os_remove, os_rmtree,
    upload_file, request.
  run_all; try reflexivity.
  all: rewrite ?map_lookup_filter, ?lookup_delete_ne by congruence; try reflexivity.
  all: destruct (files w !! f) eqn:E; simpl; [|reflexivity].
  all: case_guard; [reflexivity | simpl in *; congruence].
Qed.

Lemma upload_keeps_other_files_witness :
  files (snd (upload minio0 ["a.png"] world2)) !! "temp/keep.txt" = Some "K".
Proof.
  transitivity (files world2 !! "temp/keep.txt"); [|reflexivity].
  apply (upload_keeps_other_files minio0 "a.png" [] world2
           (fst (upload minio0 ["a.png"] world2)) (snd (upload minio0 ["a.png"] world2))
           (surjective_pairing _) "temp/keep.txt").
  - vm_compute. intros H. discriminate H.
  - vm_compute. reflexivity.
Defined.

(** X10: [delete] only acts on the bucket: local files and directories
    are unchanged, whatever the keys and the outcome. *)
Theorem delete_keeps_local_files self args w r w' :
  delete_ self args w = (r, w') ->
  files w' = files w /\ dirs w' = dirs w.
Proof.
  destruct args as [|k rest].
  - unfold delete_, for_loop, ret. intros [= _ <-]. auto.
  - unfold delete_. rewrite (for_loop_first _ true _ _ _ (delete_body_leaves self k w)).
    unfold for_loop, delete_body, delete_object, request.
    run_all; auto.
Qed.

Lemma delete_keeps_local_files_witness :
  files (snd (delete_ minio0 ["a.png"] world_get)) = files world_get.
Proof.
  exact (proj1 (delete_keeps_local_files minio0 ["a.png"] world_get
           (fst (delete_ minio0 ["a.png"] world_get))
           (snd (delete_ minio0 ["a.png"] world_get)) (surjective_pairing _))).
Defined.

(** ** The WEBP converter *)

(** X12: with Django installed, when the first image cannot be decoded,
    [webp_converter] raises the [ValueError] wrapping PIL's
    [UnidentifiedImageError], without renaming or re-encoding anything and
    without looking at the other images. *)
Theorem webp_converter_undecodable Img po pc ps image rest st :
  (forall f, images st !! image = Some f -> po (data f) = None) ->
  webp_converter Img po pc ps true (image :: rest) st =
  (Err (convert_error (UnidentifiedImageError "cannot identify image file")), st).
Proof.
  intros Hno. rewrite webp_converter_first_only.
  unfold webp_converter, convert_loop, convert_one. simpl.
  destruct (images st !! image) as [f|] eqn:Hf; [rewrite (Hno f eq_refl)|]; reflexivity.
Qed.

Lemma webp_converter_undecodable_witness :
  webp_converter _ pil_open_none pil_convert0 pil_save0 true [0; 1]%nat conv0 =
    (Err (convert_error (UnidentifiedImageError "cannot identify image file")), conv0).
Proof.
  apply (webp_converter_undecodable _ pil_open_none pil_convert0 pil_save0 0 [1%nat] conv0).
  intros f _. reflexivity.
Defined.

(** ** The extension rename *)

Lemma startswith_nil s : Py.startswith s EmptyString = true.
Proof. destruct s; reflexivity. Qed.

(** A dotted needle cannot start inside a prefix without dots. *)
Lemma contains_dot_app stem x y :
  Py.contains "." stem = false ->
  Py.contains (String "." x) (stem +:+ y) = Py.contains (String "." x) y.
Proof.
  induction stem as [|c stem IH]; intros H; [reflexivity|].
  cbn [Py.contains] in H. rewrite append_cons. cbn [Py.contains Py.startswith] in *.
  rewrite startswith_nil, andb_true_r in H.
  apply orb_false_iff in H as [Hc Hs]. rewrite Hc, IH by exact Hs. reflexivity.
Qed.

Lemma length_append_str a b :
  String.length (a +:+ b) = (String.length a + String.length b)%nat.
Proof. induction a as [|c a IH]; [reflexivity|]. rewrite append_cons. simpl. by rewrite IH. Qed.

Lemma replace_go_dot_app stem x new y fuel :
  Py.contains "." stem = false ->
  Py.replace_go (String.length stem + fuel) (String "." x) new (stem +:+ y) =
  stem +:+ Py.replace_go fuel (String "." x) new y.
Proof.
  induction stem as [|c stem IH]; intros H; [reflexivity|].
  cbn [Py.contains Py.startswith] in H. rewrite startswith_nil, andb_true_r in H.
  apply orb_false_iff in H as [Hc Hs].
  rewrite !append_cons. cbn [Py.replace_go Py.startswith String.length Nat.add]. rewrite Hc. simpl andb. cbv iota. rewrite IH by exact Hs. reflexivity.
Qed.

Lemma replace_dot_app stem x new y :
  Py.contains "." stem = false ->
  Py.replace (stem +:+ y) (String "." x) new = stem +:+ Py.replace y (String "." x) new.
Proof.
  intros H. unfold Py.replace. rewrite length_append_str. by apply replace_go_dot_app.
Qed.

(** X13: a name made of a stem without dots and one of the extensions
    [.jpg], [.jpeg], [.png], [.svg], [.gif] is renamed to the stem
    followed by [.webp]. *)
Theorem rename_ext_known stem e :
  Py.contains "." stem = false -> e ∈ extensions ->
  rename_ext extensions (stem +:+ e) = stem +:+ ".webp".
Proof.
  intros H He. unfold extensions in *.
  repeat (apply elem_of_cons in He as [-> | He]);
    [..| by apply elem_of_nil in He].
  all: cbn [rename_ext]; rewrite ?contains_dot_app, ?replace_dot_app by exact H.
  all: simpl; reflexivity.
Qed.

Lemma rename_ext_known_witness :
  rename_ext extensions ("photo" +:+ ".jpeg") = "photo" +:+ ".webp".
Proof.
  apply rename_ext_known; [reflexivity|]. unfold extensions. set_solver.
Defined.

(** ** The filename helper *)

Lemma lstrip_valid a : all_valid a = true -> Py.lstrip a = a.
Proof.
  destruct a as [|c a]; [reflexivity|]. simpl. intros H.
  apply andb_prop in H as [Hc _]. by rewrite valid_char_not_space.
Qed.

Lemma rstrip_valid a : all_valid a = true -> Py.rstrip a = a.
Proof.
  induction a as [|c a IH]; [reflexivity|]. simpl. intros H.
  apply andb_prop in H as [Hc Ha]. rewrite IH by exact Ha.
  destruct a; [by rewrite valid_char_not_space | reflexivity].
Qed.

Lemma get_valid_filename_id a : all_valid a = true -> get_valid_filename a = a.
Proof.
  intros H. unfold get_valid_filename, Py.strip.
  rewrite lstrip_valid, rstrip_valid, replace_single, subst_space_valid by exact H.
  by apply keep_valid_id.
Qed.

(** X14: [get_valid_filename] only outputs characters of [A-Za-z0-9._-],
    leaves a name made of such characters unchanged, and so is idempotent. *)
Theorem get_valid_filename_idempotent s :
  all_valid (get_valid_filename s) = true /\
  get_valid_filename (get_valid_filename s) = get_valid_filename s.
Proof.
  assert (Hv : all_valid (get_valid_filename s) = true) by apply keep_valid_valid.
  split; [exact Hv | by apply get_valid_filename_id].
Qed.

Lemma contains_char_cons c d s :
  Py.contains (String c EmptyString) (String d s) =
  Ascii.eqb c d || Py.contains (String c EmptyString) s.
Proof. cbn [Py.contains Py.startswith]. by rewrite startswith_nil, andb_true_r. Qed.

Lemma split_char_none c a :
  Py.contains (String c EmptyString) a = false -> Py.split_char c a = [a].
Proof.
  induction a as [|d a IH]; [reflexivity|].
  rewrite contains_char_cons. intros H. apply orb_false_iff in H as [Hd Ha].
  simpl. rewrite Ascii.eqb_sym, Hd, IH by exact Ha. reflexivity.
Qed.

Lemma split_char_app c a b :
  Py.contains (String c EmptyString) a = false ->
  Py.split_char c (a +:+ String c b) = a :: Py.split_char c b.
Proof.
  induction a as [|d a IH]; intros H.
  - simpl. by rewrite Ascii.eqb_refl.
  - rewrite contains_char_cons in H. apply orb_false_iff in H as [Hd Ha].
    rewrite append_cons. simpl. rewrite Ascii.eqb_sym, Hd, IH by exact Ha. reflexivity.
Qed.

Lemma valid_no_slash a : all_valid a = true -> Py.contains "/" a = false.
Proof.
  induction a as [|d a IH]; [reflexivity|].
  rewrite contains_char_cons. cbn [all_valid]. intros H. apply andb_prop in H as [Hd Ha].
  rewrite IH by exact Ha. rewrite orb_false_r.
  destruct (Ascii.eqb "/" d) eqn:E; [|reflexivity].
  apply Ascii.eqb_eq in E. subst d. discriminate Hd.
Qed.

(** X15: when the model's class name has no ['/'], the path returned by
    [generate_image_filename] has exactly three ['/']-separated segments:
    the class name, the formatted [created_at], and the sanitized file
    name. *)
Theorem generate_image_filename_segments cls dt filename r :
  Py.contains "/" cls = false ->
  let ts := strftime "%Y-%m-%d-%H-%M-%S-%F" dt in
  let ext := Py.last_item (Py.split_char "." filename) in
  Py.split_char "/" (generate_image_filename cls dt filename r) =
    [cls; ts; get_valid_filename (ts +:+ "-" +:+ Py.str_int r +:+ "." +:+ ext)].
Proof.
  intros Hc ts ext. unfold generate_image_filename. fold ts ext.
  destruct (timestamp_valid dt) as [_ Htv]. fold ts in Htv.
  rewrite ?append_cons, ?append_nil. rewrite split_char_app by exact Hc.
  rewrite split_char_app by (apply valid_no_slash; exact Htv).
  rewrite split_char_none by (apply valid_no_slash, keep_valid_valid).
  reflexivity.
Qed.

Lemma generate_image_filename_segments_witness :
  length (Py.split_char "/" (generate_image_filename "Post" created0 "a/b c.png" 1234)) = 3%nat.
Proof.
  rewrite (generate_image_filename_segments "Post" created0 "a/b c.png" 1234).
  - reflexivity.
  - reflexivity.
Defined.
